(** * ParameterVector: deterministic element identities under resize

    A shallow embedding of [qiskit/circuit/parametervector.py] and the
    properties of its element identities.  Python integers are [Z], the
    list [_params] is a [list] read with stdpp's lookup, exceptions are an
    explicit result type, and the methods that read or write the slots of
    [self] live in a small state-and-exception monad. *)

From Stdlib Require Import ZArith.
From stdpp Require Import base decidable numbers list list_numbers strings.

Local Open Scope Z_scope.

(** ** Exceptions and results *)

(** The exceptions the modelled code can raise. *)
Inductive exn : Set :=
| ValueError
| IndexError.

(** The outcome of evaluating a Python expression. *)
Inductive result (A : Type) : Type :=
| Ok (a : A)
| Raise (e : exn).
Arguments Ok {A} a.
Arguments Raise {A} e.

#[global] Instance result_ret : MRet result := @Ok.
#[global] Instance result_bind : MBind result := fun A B f r =>
  match r with
  | Ok a => f a
  | Raise e => Raise e
  end.

(** [raises r] holds when the evaluation ended in an exception. *)
Definition raises {A} (r : result A) : Prop := exists e, r = Raise e.

(** ** The Python built-ins the class relies on *)

Module Py.

(** [len(l)]. *)
Definition len {A} (l : list A) : Z := Z.of_nat (length l).

(** [range(start, stop)] over integers; empty when [stop <= start]. *)
Definition range (start stop : Z) : list Z := seqZ start (stop - start).

(** [l[key]] for an integer key: a negative key counts from the end, and
    a key outside [-len(l) .. len(l)-1] raises [IndexError]. *)
Definition list_getitem {A} (l : list A) (key : Z) : result A :=
  let i := if key <? 0 then key + len l else key in
  if (i <? 0) || (len l <=? i) then Raise IndexError
  else match l !! Z.to_nat i with
       | Some x => Ok x
       | None => Raise IndexError
       end.

(** The start of the slice [l[start:]] on a list of length [n], clipped
    the way CPython adjusts slice indices. *)
Definition slice_start (n start : Z) : Z :=
  if start <? 0 then Z.max (start + n) 0 else Z.min start n.

(** [del l[start:]]. *)
Definition list_del_from {A} (l : list A) (start : Z) : list A :=
  take (Z.to_nat (slice_start (len l) start)) l.

(** [l.extend(more)]. *)
Definition list_extend {A} (l more : list A) : list A := l ++ more.

(** A list comprehension [[f(i) for i in l]] whose body may raise: the
    first exception aborts the whole comprehension. *)
Fixpoint comprehension {A B} (f : A -> result B) (l : list A) : result (list B) :=
  match l with
  | [] => Ok []
  | i :: l' => x ← f i; xs ← comprehension f l'; Ok (x :: xs)
  end.

(** [l.index(value)]: the position of the first item that compares equal
    to [value] under [eqb], scanning from the front; [ValueError] when no
    item does. *)
Fixpoint list_index_from {A} (eqb : A -> A -> bool) (l : list A) (value : A) (i : Z)
  : result Z :=
  match l with
  | [] => Raise ValueError
  | x :: l' => if eqb x value then Ok i else list_index_from eqb l' value (i + 1)
  end.

Definition list_index {A} (eqb : A -> A -> bool) (l : list A) (value : A) : result Z :=
  list_index_from eqb l value 0.

End Py.

(** ** uuid.UUID *)

(** A [uuid.UUID] object: an immutable integer that the constructor has
    checked to lie in [0 .. 2^128 - 1]. *)
Record UUID : Set := mkUUID {
  int : Z;
  int_range : bool_decide (0 <= int < 1 ≪ 128)
}.

(** [UUID(int=i)]: raises [ValueError] when [i] is not a 128-bit value. *)
Definition UUID_new (i : Z) : result UUID :=
  match decide (bool_decide (0 <= i < 1 ≪ 128)) with
  | left H => Ok (mkUUID i H)
  | right _ => Raise ValueError
  end.

(** The bits [UUID(..., version=v)] forces: the RFC 4122 variant, then
    the version number. *)
Definition set_version (i version : Z) : Z :=
  let i := Z.land i (Z.lnot (0xc000 ≪ 48)) in
  let i := Z.lor i (0x8000 ≪ 48) in
  let i := Z.land i (Z.lnot (0xf000 ≪ 64)) in
  Z.lor i (version ≪ 76).

Lemma bits_128 (x : Z) :
  0 <= x < 1 ≪ 128 <-> 0 <= x /\ forall n, 128 <= n -> Z.testbit x n = false.
Proof.
  change (1 ≪ 128) with (2 ^ 128). split.
  - intros [Hx Hlt]. split; [done|]. intros n Hn.
    destruct (decide (x = 0)) as [->|Hne]; [apply Z.bits_0|].
    apply Z.bits_above_log2; [done|].
    assert (Z.log2 x < 128) by (apply Z.log2_lt_pow2; lia). lia.
  - intros [Hx Hbits]. split; [done|].
    destruct (decide (x = 0)) as [->|Hne]; [done|].
    apply Z.log2_lt_pow2; [lia|].
    destruct (Z_lt_le_dec (Z.log2 x) 128) as [|Hge]; [done|].
    pose proof (Z.bit_log2 x ltac:(lia)) as Hb.
    rewrite Hbits in Hb by done. discriminate.
Qed.

Lemma set_version_range (i : Z) :
  0 <= i < 1 ≪ 128 -> 0 <= set_version i 4 < 1 ≪ 128.
Proof.
  intros Hi. apply bits_128 in Hi as [Hi Hbits]. apply bits_128. split.
  - unfold set_version. rewrite Z.lor_nonneg, Z.land_nonneg, Z.lor_nonneg, Z.land_nonneg.
    split; [|done]. left. split; [by left|done].
  - intros n Hn. unfold set_version.
    assert (Hc : forall c, 0 <= c < 1 ≪ 128 -> Z.testbit c n = false).
    { intros c Hc. apply bits_128 in Hc as [_ Hc]. by apply Hc. }
    rewrite Z.lor_spec, Z.land_spec, Z.lor_spec, Z.land_spec, Hbits by done.
    rewrite (Hc (0x8000 ≪ 48)), (Hc (4 ≪ 76)) by (by vm_compute).
    done.
Qed.

(** [uuid4()]: the 16 bytes drawn from [os.urandom], read as the 128-bit
    value [rnd], with the version-4 bits forced. *)
Definition uuid4 (rnd : UUID) : UUID :=
  mkUUID (set_version (int rnd) 4)
         (bool_decide_pack _ (set_version_range _ (bool_decide_unpack _ (int_range rnd)))).

(** ** ParameterVectorElement *)

(** The identity of a Python object (what [id] returns). *)
Definition ObjRef : Set := nat.

(** Modelled from the spec: the element class is imported from the
    compiled extension [qiskit._accelerate.circuit], which is not among
    the Python sources embedded here.  The spec gives it as an opaque
    value built from [(vector_ref, index, identity)] and serialised as
    that same triple. *)
Record Element : Set := ParameterVectorElement {
  vector : ObjRef;
  index : Z;
  uuid : UUID
}.

(** The pickled form of one element. *)
Abbreviation payload := (ObjRef * Z * UUID)%type.

(** Modelled from the spec: [p.__getstate__()] of an element. *)
Definition element_getstate (p : Element) : payload :=
  (vector p, index p, uuid p).

(** [ParameterVectorElement( *p )] for a payload [p]. *)
Definition element_of_payload (p : payload) : Element :=
  let '(v, i, u) := p in ParameterVectorElement v i u.

(** ** ParameterVector *)

(** The object: its identity and its three slots. *)
Record ParameterVector : Set := mkPV {
  self_id : ObjRef;
  _name : string;
  _params : list Element;
  _root_uuid : UUID
}.

(** What [__getstate__] returns and [__setstate__] takes. *)
Abbreviation pickled := (string * list payload * UUID)%type.

(** Methods run on [self]: they return a value or raise, and leave the
    object in some state either way. *)
Definition M (A : Type) : Type := ParameterVector -> result A * ParameterVector.

#[global] Instance M_ret : MRet M := fun A a self => (Ok a, self).
#[global] Instance M_bind : MBind M := fun A B k m self =>
  match m self with
  | (Ok a, self') => k a self'
  | (Raise e, self') => (Raise e, self')
  end.

(** Read a slot of [self]. *)
Definition gets {A} (f : ParameterVector -> A) : M A := fun self => (Ok (f self), self).

(** Evaluate an expression that does not touch [self]. *)
Definition lift {A} (r : result A) : M A := fun self => (r, self).

(** Mutate the list held in [self._params] in place. *)
Definition modify_params (f : list Element -> list Element) : M unit := fun self =>
  (Ok tt, mkPV (self_id self) (_name self) (f (_params self)) (_root_uuid self)).

(** The element the two comprehensions build for index [i]:
    [ParameterVectorElement(self, i, UUID(int=root_uuid_int + i))]. *)
Definition make_element (self : ObjRef) (root_uuid_int i : Z) : result Element :=
  u ← UUID_new (root_uuid_int + i); Ok (ParameterVectorElement self i u).

(** [ParameterVector(name, length)] allocated at [self], with [rnd] the
    entropy [uuid4] draws.  [length] defaults to 0. *)
Definition __init__ (self : ObjRef) (name : string) (length : Z) (rnd : UUID)
  : result ParameterVector :=
  let root_uuid := uuid4 rnd in
  let root_uuid_int := int root_uuid in
  params ← Py.comprehension (make_element self root_uuid_int) (Py.range 0 length);
  Ok (mkPV self name params root_uuid).

(** The [params] property. *)
Definition params : M (list Element) := gets _params.

(** [self[key]] for an integer key. *)
Definition __getitem__ (key : Z) : M Element :=
  l ← params; lift (Py.list_getitem l key).

(** [len(self)]. *)
Definition __len__ : M Z := gets (fun self => Py.len (_params self)).

(** [self.__getstate__()]. *)
Definition __getstate__ : M pickled := fun self =>
  (Ok (_name self, element_getstate <$> _params self, _root_uuid self), self).

(** [self.__setstate__(state)]: every slot is overwritten. *)
Definition __setstate__ (state : pickled) : M unit := fun self =>
  let '(name, params, root_uuid) := state in
  (Ok tt, mkPV (self_id self) name (element_of_payload <$> params) root_uuid).

(** [self.resize(length)]. *)
Definition resize (length : Z) : M unit :=
  l ← gets _params;
  if Py.len l <? length then
    root_uuid_int ← gets (fun self => int (_root_uuid self));
    self ← gets self_id;
    more ← lift (Py.comprehension (make_element self root_uuid_int)
                                  (Py.range (Py.len l) length));
    modify_params (fun l => Py.list_extend l more)
  else
    modify_params (fun l => Py.list_del_from l length).

(** A run of [resize] calls, stopping at the first one that raises. *)
Fixpoint resize_all (lengths : list Z) : M unit :=
  match lengths with
  | [] => mret tt
  | n :: rest => resize n;; resize_all rest
  end.

(** The states a program can bring a vector to: built by the constructor,
    then resized any number of times (a call that raises leaves the
    object as the call left it). *)
Inductive reachable : ParameterVector -> Prop :=
| reach_init self name length rnd pv :
    __init__ self name length rnd = Ok pv -> reachable pv
| reach_resize pv n :
    reachable pv -> reachable (snd (resize n pv)).

(** The determinism invariant: the element at position [k] belongs to
    this vector, carries index [k], and its identity is the root's plus
    [k]. *)
Definition determinism (pv : ParameterVector) : Prop :=
  forall (k : nat) (e : Element), _params pv !! k = Some e ->
    vector e = self_id pv /\ index e = Z.of_nat k /\
    int (uuid e) = int (_root_uuid pv) + Z.of_nat k.

(** ** The rest of the class *)

(** Modelled from the spec: [a == b] on elements is decided by the
    compiled extension; the spec gives it as equality of identities. *)
Definition element_eqb (a b : Element) : bool :=
  bool_decide (int (uuid a) = int (uuid b)).

(** The [name] property. *)
Definition name : M string := gets _name.

(** [self.index(value)] for an element [value]; the method is called
    [index] in the source, a name the element's field already has here. *)
Definition index_of (value : Element) : M Z :=
  l ← gets _params; lift (Py.list_index element_eqb l value).

(** [self.__getnewargs__()]. *)
Definition __getnewargs__ : M (string * Z) := fun self =>
  (Ok (_name self, Py.len (_params self)), self).

(** The iterator [iter(self.params)] returns: the position of the next
    item in the list held by [self._params], or [None] once it has been
    exhausted.  It reads the live list, which [resize] mutates in place;
    only [__setstate__] binds the slot to another list. *)
Abbreviation list_iterator := (option nat).

(** [self.__iter__()]. *)
Definition __iter__ : M list_iterator :=
  _ ← params; mret (Some 0%nat).

(** [next(it)]: the next item and the advanced iterator, or [None] for
    [StopIteration], after which the iterator stays exhausted. *)
Definition __next__ (it : list_iterator) : M (option Element * list_iterator) :=
  match it with
  | None => mret (None, None)
  | Some i =>
      l ← params;
      match l !! i with
      | Some x => mret (Some x, Some (S i))
      | None => mret (None, None)
      end
  end.

(** [list(it)]: call [next] until [StopIteration]; [None] when [fuel]
    calls were not enough. *)
Fixpoint collect (fuel : nat) (it : list_iterator) : M (option (list Element)) :=
  match fuel with
  | O => mret None
  | S fuel' =>
      '(x, it') ← __next__ it;
      match x with
      | None => mret (Some [])
      | Some e => r ← collect fuel' it'; mret (cons e <$> r)
      end
  end.

(** The invariant that survives pickling: position [k] holds the element
    with index [k] and identity root + [k], whatever vector it names as
    its owner. *)
Definition identities (pv : ParameterVector) : Prop :=
  forall (k : nat) (e : Element), _params pv !! k = Some e ->
    index e = Z.of_nat k /\
    int (uuid e) = int (_root_uuid pv) + Z.of_nat k.

(** ** Concrete vectors used as test inputs *)

Definition rnd0 : UUID := mkUUID 0 I.

(** The largest root identity, and an empty vector unpickled with it. *)
Definition max_root : UUID := mkUUID (2 ^ 128 - 1) I.
Definition blank : ParameterVector := mkPV 0%nat "" [] rnd0.
Definition edge_pv : ParameterVector := snd (__setstate__ ("v", [], max_root) blank).

(** A pickled state whose only payload stores identity 5 at index 0,
    under root identity 0. *)
Definition forged : pickled := ("v", [(7%nat, 0, mkUUID 5 I)], rnd0).

(** [ParameterVector("theta", 3)] as the constructor leaves it. *)
Definition theta3_pv : ParameterVector :=
  mkPV 1%nat "theta"
       [ParameterVectorElement 1%nat 0 (mkUUID 0x40008000000000000000 I);
        ParameterVectorElement 1%nat 1 (mkUUID 0x40008000000000000001 I);
        ParameterVectorElement 1%nat 2 (mkUUID 0x40008000000000000002 I)]
       (uuid4 rnd0).

(** ** Facts about the built-ins *)

(** Linear arithmetic over list lengths seen through [len]. *)
Ltac len_lia := unfold Py.len in *; lia.

Section builtins.
Context {A : Type}.
Implicit Types (l : list A) (key n : Z).

Lemma len_nonneg l : 0 <= Py.len l.
Proof. len_lia. Qed.

Lemma len_app l1 l2 : Py.len (l1 ++ l2) = Py.len l1 + Py.len l2.
Proof. unfold Py.len. rewrite length_app. lia. Qed.

Lemma list_getitem_index l key :
  0 <= key < Py.len l ->
  exists x, l !! Z.to_nat key = Some x /\ Py.list_getitem l key = Ok x.
Proof.
  intros Hkey. unfold Py.list_getitem, Py.len in *.
  destruct (Z.ltb_spec key 0); [lia|].
  destruct (Z.ltb_spec key 0); [lia|].
  destruct (Z.leb_spec (Z.of_nat (length l)) key); [lia|]. simpl.
  destruct (lookup_lt_is_Some_2 l (Z.to_nat key)) as [x Hx]; [lia|].
  exists x. by rewrite Hx.
Qed.

Lemma list_getitem_negative l key :
  - Py.len l <= key < 0 ->
  Py.list_getitem l key = Py.list_getitem l (key + Py.len l).
Proof.
  intros Hkey. unfold Py.list_getitem. cbv zeta.
  destruct (Z.ltb_spec key 0); [|lia].
  assert (Hf : (key + Py.len l <? 0) = false) by (apply Z.ltb_ge; lia).
  by rewrite !Hf.
Qed.

Lemma list_getitem_raises l key :
  Py.list_getitem l key = Raise IndexError <-> ~ (- Py.len l <= key < Py.len l).
Proof.
  pose proof (len_nonneg l) as Hl. unfold Py.list_getitem.
  destruct (Z.ltb_spec key 0) as [Hneg|Hpos].
  - destruct (Z.ltb_spec (key + Py.len l) 0); simpl; [split; [lia|done]|].
    destruct (Z.leb_spec (Py.len l) (key + Py.len l)); [lia|].
    destruct (lookup_lt_is_Some_2 l (Z.to_nat (key + Py.len l))) as [x Hx];
      [len_lia|].
    rewrite Hx. split; [done|lia].
  - destruct (Z.ltb_spec key 0); [lia|]. simpl.
    destruct (Z.leb_spec (Py.len l) key); [split; [lia|done]|].
    destruct (lookup_lt_is_Some_2 l (Z.to_nat key)) as [x Hx];
      [len_lia|].
    rewrite Hx. split; [done|lia].
Qed.

Lemma list_getitem_exn l key e : Py.list_getitem l key = Raise e -> e = IndexError.
Proof.
  unfold Py.list_getitem.
  repeat case_match; congruence.
Qed.

Lemma list_del_from_take l n :
  0 <= n -> Py.list_del_from l n = take (Z.to_nat n) l.
Proof.
  intros Hn. unfold Py.list_del_from, Py.slice_start.
  destruct (Z.ltb_spec n 0); [lia|].
  destruct (Z.le_gt_cases n (Py.len l)).
  - by rewrite Z.min_l.
  - rewrite Z.min_r by lia. unfold Py.len in *.
    rewrite !firstn_all2; [done| |]; lia.
Qed.

Lemma list_del_from_negative l n :
  n < 0 -> Py.list_del_from l n = take (Z.to_nat (Z.max (n + Py.len l) 0)) l.
Proof.
  intros Hn. unfold Py.list_del_from, Py.slice_start.
  by destruct (Z.ltb_spec n 0); [|lia].
Qed.

Lemma list_del_from_len l : Py.list_del_from l (Py.len l) = l.
Proof.
  rewrite list_del_from_take by apply len_nonneg.
  unfold Py.len. rewrite Nat2Z.id. apply firstn_all.
Qed.

End builtins.

Lemma comprehension_Forall2 {A B} (f : A -> result B) (l : list A) (r : list B) :
  Py.comprehension f l = Ok r <-> Forall2 (fun i x => f i = Ok x) l r.
Proof.
  revert r. induction l as [|i l IH]; intros r; simpl.
  - split; [intros [= <-]; constructor|intros ->%Forall2_nil_inv_l; done].
  - destruct (f i) as [x|e] eqn:Hf; simpl.
    + destruct (Py.comprehension f l) as [xs|e] eqn:Hc; simpl.
      * split.
        -- intros [= <-]. constructor; [done|by apply IH].
        -- inversion 1 as [|? y ? ys Hy Hys]; subst.
           apply IH in Hys. congruence.
      * split; [done|]. inversion 1 as [|? y ? ys Hy Hys]; subst.
        apply IH in Hys. done.
    + split; [done|]. inversion 1; congruence.
Qed.

Lemma comprehension_raises {A B} (f : A -> result B) (l : list A) (e : exn) :
  Py.comprehension f l = Raise e -> exists i, i ∈ l /\ f i = Raise e.
Proof.
  induction l as [|i l IH]; simpl; [done|].
  destruct (f i) as [x|e'] eqn:Hf; simpl.
  - destruct (Py.comprehension f l) as [xs|e'] eqn:Hc; simpl; [done|].
    intros [= ->]. destruct IH as (j & Hj & Hfj); [done|].
    exists j. split; [by right|done].
  - intros [= ->]. exists i. split; [by left|done].
Qed.

(** ** Facts about UUIDs and element creation *)

Lemma UUID_bound (u : UUID) : 0 <= int u < 2 ^ 128.
Proof. exact (bool_decide_unpack _ (int_range u)). Qed.

Lemma UUID_eq (u v : UUID) : int u = int v -> u = v.
Proof.
  destruct u as [i Hi], v as [j Hj]; simpl. intros ->.
  f_equal. apply proof_irrel.
Qed.

Lemma UUID_new_Ok (i : Z) :
  0 <= i < 2 ^ 128 -> exists u, UUID_new i = Ok u /\ int u = i.
Proof.
  intros Hi. unfold UUID_new.
  destruct (decide _) as [H|H]; [by eexists|].
  destruct H. by apply bool_decide_pack.
Qed.

Lemma UUID_new_Raise (i : Z) :
  ~ (0 <= i < 2 ^ 128) -> UUID_new i = Raise ValueError.
Proof.
  intros Hi. unfold UUID_new.
  destruct (decide _) as [H|H]; [|done].
  destruct Hi. by apply bool_decide_unpack in H.
Qed.

Lemma UUID_new_inv (i : Z) (u : UUID) : UUID_new i = Ok u -> int u = i.
Proof.
  unfold UUID_new. destruct (decide _); [|done]. by intros [= <-].
Qed.

Lemma make_element_Ok (self : ObjRef) (root i : Z) :
  0 <= root + i < 2 ^ 128 ->
  exists e, make_element self root i = Ok e /\
            vector e = self /\ index e = i /\ int (uuid e) = root + i.
Proof.
  intros Hi. unfold make_element.
  destruct (UUID_new_Ok _ Hi) as (u & -> & Hu). simpl. by eexists.
Qed.

Lemma make_element_Raise (self : ObjRef) (root i : Z) :
  ~ (0 <= root + i < 2 ^ 128) -> make_element self root i = Raise ValueError.
Proof.
  intros Hi. unfold make_element. by rewrite UUID_new_Raise.
Qed.

Lemma make_element_inv (self : ObjRef) (root i : Z) (e : Element) :
  make_element self root i = Ok e ->
  vector e = self /\ index e = i /\ int (uuid e) = root + i.
Proof.
  unfold make_element.
  destruct (UUID_new (root + i)) as [u|] eqn:Hu; simpl; [|done].
  intros [= <-]. simpl. by rewrite (UUID_new_inv _ _ Hu).
Qed.

Lemma make_element_exn (self : ObjRef) (root i : Z) (x : exn) :
  make_element self root i = Raise x ->
  x = ValueError /\ ~ (0 <= root + i < 2 ^ 128).
Proof.
  intros Hx. destruct (decide (0 <= root + i < 2 ^ 128)) as [Hi|Hi].
  - destruct (make_element_Ok self root i Hi) as (e & He & _). congruence.
  - rewrite make_element_Raise in Hx by done. by injection Hx as <-.
Qed.

(** The elements a comprehension over [range(a, b)] returns. *)
Lemma fresh_elements_spec (self : ObjRef) (root a b : Z) (more : list Element) :
  Py.comprehension (make_element self root) (Py.range a b) = Ok more ->
  Py.len more = Z.max (b - a) 0 /\
  forall (k : nat) e, more !! k = Some e ->
    vector e = self /\ index e = a + Z.of_nat k /\
    int (uuid e) = root + (a + Z.of_nat k).
Proof.
  intros Hc%comprehension_Forall2. split.
  - apply Forall2_length in Hc. unfold Py.len, Py.range in *.
    rewrite <- Hc, length_seqZ. lia.
  - intros k e Hk.
    destruct (Forall2_lookup_r _ _ _ _ _ Hc Hk) as (i & Hi & He).
    apply lookup_seqZ in Hi as [-> _]. by apply make_element_inv in He.
Qed.

(** The comprehension succeeds exactly when every sum fits 128 bits. *)
Lemma fresh_elements_Ok (self : ObjRef) (root a b : Z) :
  (a < b -> 0 <= root + a /\ root + b <= 2 ^ 128) ->
  exists more, Py.comprehension (make_element self root) (Py.range a b) = Ok more.
Proof.
  intros Hfit. unfold Py.range.
  assert (Hall : Forall (fun i => a <= i < b) (seqZ a (b - a))).
  { apply Forall_seqZ. lia. }
  induction Hall as [|i l Hi _ IH]; simpl; [by eexists|].
  destruct (make_element_Ok self root i) as (e & -> & _); [lia|].
  destruct IH as [more ->]. simpl. by eexists.
Qed.

Lemma fresh_elements_Raise (self : ObjRef) (root a b : Z) :
  a < b -> 0 <= root + a -> 2 ^ 128 < root + b ->
  Py.comprehension (make_element self root) (Py.range a b) = Raise ValueError.
Proof.
  intros Hab Ha Hb.
  destruct (Py.comprehension _ _) as [more|x] eqn:Hc.
  - apply fresh_elements_spec in Hc as [Hlen Hmore].
    destruct (lookup_lt_is_Some_2 more (Z.to_nat (b - a - 1))) as [e He];
      [unfold Py.len in Hlen; lia|].
    destruct (Hmore _ _ He) as (_ & _ & Hid).
    pose proof (UUID_bound (uuid e)). lia.
  - apply comprehension_raises in Hc as (i & _ & Hi).
    by apply make_element_exn in Hi as [-> _].
Qed.

(** ** The methods, one equation each *)

Lemma resize_unfold (n : Z) (pv : ParameterVector) :
  resize n pv =
  if Py.len (_params pv) <? n then
    match Py.comprehension (make_element (self_id pv) (int (_root_uuid pv)))
                           (Py.range (Py.len (_params pv)) n) with
    | Ok more => (Ok tt, mkPV (self_id pv) (_name pv) (_params pv ++ more) (_root_uuid pv))
    | Raise e => (Raise e, pv)
    end
  else (Ok tt, mkPV (self_id pv) (_name pv) (Py.list_del_from (_params pv) n) (_root_uuid pv)).
Proof.
  unfold resize, mbind, M_bind, gets, lift, modify_params. simpl.
  destruct (_ <? _); [|done]. by destruct (Py.comprehension _ _).
Qed.

Lemma getitem_unfold (key : Z) (pv : ParameterVector) :
  __getitem__ key pv = (Py.list_getitem (_params pv) key, pv).
Proof. reflexivity. Qed.

Lemma len_unfold (pv : ParameterVector) :
  __len__ pv = (Ok (Py.len (_params pv)), pv).
Proof. reflexivity. Qed.

Lemma pv_eta (pv : ParameterVector) :
  mkPV (self_id pv) (_name pv) (_params pv) (_root_uuid pv) = pv.
Proof. by destruct pv. Qed.

(** ** What one call of resize does *)

Lemma resize_shrink (n : Z) (pv : ParameterVector) :
  n <= Py.len (_params pv) ->
  resize n pv =
  (Ok tt, mkPV (self_id pv) (_name pv) (Py.list_del_from (_params pv) n) (_root_uuid pv)).
Proof.
  intros Hn. rewrite resize_unfold.
  by destruct (Z.ltb_spec (Py.len (_params pv)) n); [lia|].
Qed.

Lemma resize_grow (n : Z) (pv pv' : ParameterVector) :
  Py.len (_params pv) < n ->
  resize n pv = (Ok tt, pv') ->
  exists more,
    Py.comprehension (make_element (self_id pv) (int (_root_uuid pv)))
                     (Py.range (Py.len (_params pv)) n) = Ok more /\
    pv' = mkPV (self_id pv) (_name pv) (_params pv ++ more) (_root_uuid pv).
Proof.
  intros Hn. rewrite resize_unfold.
  destruct (Z.ltb_spec (Py.len (_params pv)) n); [|lia].
  destruct (Py.comprehension _ _) as [more|x]; [|done].
  intros [= <-]. by exists more.
Qed.

(** A call that raises has not touched the object. *)
Lemma resize_raises_unchanged (n : Z) (pv : ParameterVector) (x : exn) :
  fst (resize n pv) = Raise x -> snd (resize n pv) = pv /\ x = ValueError.
Proof.
  rewrite resize_unfold. destruct (_ <? _); [|done].
  destruct (Py.comprehension _ _) as [more|y] eqn:Hc; simpl; [done|].
  intros [= ->]. split; [done|].
  apply comprehension_raises in Hc as (i & _ & Hi).
  by apply make_element_exn in Hi as [-> _].
Qed.

Lemma resize_frame (n : Z) (pv : ParameterVector) :
  self_id (snd (resize n pv)) = self_id pv /\
  _name (snd (resize n pv)) = _name pv /\
  _root_uuid (snd (resize n pv)) = _root_uuid pv.
Proof.
  rewrite resize_unfold. destruct (_ <? _); [|done].
  by destruct (Py.comprehension _ _).
Qed.

Lemma resize_succeeds (n : Z) (pv : ParameterVector) :
  n <= Py.len (_params pv) \/ int (_root_uuid pv) + n <= 2 ^ 128 ->
  exists pv', resize n pv = (Ok tt, pv').
Proof.
  intros Hfit. rewrite resize_unfold.
  destruct (Z.ltb_spec (Py.len (_params pv)) n) as [Hlt|Hge]; [|by eexists].
  destruct (fresh_elements_Ok (self_id pv) (int (_root_uuid pv))
              (Py.len (_params pv)) n) as [more ->]; [|by eexists].
  pose proof (UUID_bound (_root_uuid pv)). pose proof (len_nonneg (_params pv)). lia.
Qed.

Lemma resize_overflows (n : Z) (pv : ParameterVector) :
  Py.len (_params pv) < n -> 2 ^ 128 < int (_root_uuid pv) + n ->
  resize n pv = (Raise ValueError, pv).
Proof.
  intros Hlt Hbig. rewrite resize_unfold.
  destruct (Z.ltb_spec (Py.len (_params pv)) n); [|lia].
  rewrite fresh_elements_Raise; try done.
  pose proof (UUID_bound (_root_uuid pv)). pose proof (len_nonneg (_params pv)). lia.
Qed.

Lemma resize_len (n : Z) (pv pv' : ParameterVector) :
  0 <= n -> resize n pv = (Ok tt, pv') -> Py.len (_params pv') = n.
Proof.
  intros Hn Hr. destruct (Z.le_gt_cases n (Py.len (_params pv))) as [Hle|Hgt].
  - rewrite resize_shrink in Hr by done. injection Hr as <-. simpl.
    rewrite list_del_from_take by done. unfold Py.len in *.
    rewrite length_take. lia.
  - apply resize_grow in Hr as (more & Hmore & ->); [|lia]. simpl.
    apply fresh_elements_spec in Hmore as [Hlen _].
    rewrite len_app, Hlen. lia.
Qed.

(** ** The invariant holds in every reachable state *)

Lemma determinism_take (pv : ParameterVector) (m : nat) :
  determinism pv ->
  determinism (mkPV (self_id pv) (_name pv) (take m (_params pv)) (_root_uuid pv)).
Proof.
  intros Hinv k e Hk. simpl in *.
  apply lookup_take_Some in Hk as [Hk _]. by apply Hinv.
Qed.

Lemma init_spec (self : ObjRef) (name : string) (length : Z) (rnd : UUID)
    (pv : ParameterVector) :
  __init__ self name length rnd = Ok pv ->
  self_id pv = self /\ _name pv = name /\ _root_uuid pv = uuid4 rnd /\
  Py.len (_params pv) = Z.max length 0 /\ determinism pv.
Proof.
  unfold __init__. cbv zeta.
  destruct (Py.comprehension _ _) as [l|] eqn:Hl; simpl; [|done].
  intros [= <-]. simpl. apply fresh_elements_spec in Hl as [Hlen Hl].
  split; [done|]. split; [done|]. split; [done|]. split; [lia|].
  intros k e Hk. simpl in *. destruct (Hl k e Hk) as (Hv & Hidx & Hid).
  split; [done|]. split; lia.
Qed.

Lemma resize_determinism (n : Z) (pv : ParameterVector) :
  determinism pv -> determinism (snd (resize n pv)).
Proof.
  intros Hinv. rewrite resize_unfold.
  destruct (Z.ltb_spec (Py.len (_params pv)) n) as [Hlt|Hge].
  - destruct (Py.comprehension _ _) as [more|x] eqn:Hc; [|done]. simpl.
    apply fresh_elements_spec in Hc as [_ Hmore].
    intros k e Hk. simpl in *. apply lookup_app_Some in Hk as [Hk|[Hlen Hk]].
    + by apply Hinv.
    + destruct (Hmore _ _ Hk) as (Hv & Hi & Hu). unfold Py.len in *.
      repeat split; [done|lia..].
  - simpl. unfold Py.list_del_from. by apply determinism_take.
Qed.

Lemma reachable_determinism (pv : ParameterVector) :
  reachable pv -> determinism pv.
Proof.
  induction 1 as [self name length rnd pv Hinit|pv n _ IH].
  - by apply init_spec in Hinit as (_ & _ & _ & _ & Hinv).
  - by apply resize_determinism.
Qed.

(** Where the invariant holds, the identities of the live elements fit
    128 bits, so there is room to regrow up to the current length. *)
Lemma determinism_room (pv : ParameterVector) :
  determinism pv -> int (_root_uuid pv) + Py.len (_params pv) <= 2 ^ 128.
Proof.
  intros Hinv. pose proof (UUID_bound (_root_uuid pv)) as Hroot.
  destruct (decide (length (_params pv) = 0%nat)) as [Hz|Hnz].
  - len_lia.
  - destruct (lookup_lt_is_Some_2 (_params pv) (pred (length (_params pv))))
      as [e He]; [lia|].
    destruct (Hinv _ _ He) as (_ & _ & Hid).
    pose proof (UUID_bound (uuid e)). len_lia.
Qed.

Lemma determinism_getitem (pv : ParameterVector) (i : Z) :
  determinism pv -> 0 <= i < Py.len (_params pv) ->
  exists e, __getitem__ i pv = (Ok e, pv) /\
            vector e = self_id pv /\ index e = i /\
            int (uuid e) = int (_root_uuid pv) + i.
Proof.
  intros Hinv Hi. rewrite getitem_unfold.
  destruct (list_getitem_index (_params pv) i Hi) as (e & He & ->).
  exists e. split; [done|]. destruct (Hinv _ _ He) as (? & ? & ?).
  repeat split; [done|lia..].
Qed.

Lemma resize_all_reachable (lengths : list Z) (pv : ParameterVector) :
  reachable pv -> reachable (snd (resize_all lengths pv)).
Proof.
  revert pv. induction lengths as [|n rest IH]; intros pv Hpv; [done|].
  simpl. unfold mbind, M_bind.
  pose proof (reach_resize pv n Hpv) as Hstep.
  destruct (resize n pv) as [[[]|x] pv1]; simpl in *; [by apply IH|done].
Qed.

Lemma resize_all_root (lengths : list Z) (pv : ParameterVector) :
  _root_uuid (snd (resize_all lengths pv)) = _root_uuid pv.
Proof.
  revert pv. induction lengths as [|n rest IH]; intros pv; [done|].
  simpl. unfold mbind, M_bind.
  destruct (resize_frame n pv) as (_ & _ & Hroot).
  destruct (resize n pv) as [[[]|x] pv1]; simpl in *; [|done].
  by rewrite IH.
Qed.

(** ** Determinism *)

(** C1: a vector built by the constructor with a non-negative length and
    then resized any number of times with non-negative lengths (the run
    ending at the first call that raises, if one does) keeps, at every
    index [i] below its length, an element whose identity is the root
    identity plus [i]; the root is the one drawn at construction and the
    sum is a 128-bit value. *)
Theorem determinism_after_resizes
    (self : ObjRef) (name : string) (length : Z) (rnd : UUID)
    (lengths : list Z) (pv0 pv : ParameterVector) :
  0 <= length ->
  Forall (fun n => 0 <= n) lengths ->
  __init__ self name length rnd = Ok pv0 ->
  snd (resize_all lengths pv0) = pv ->
  _root_uuid pv = uuid4 rnd /\
  forall (L i : Z), __len__ pv = (Ok L, pv) -> 0 <= i < L ->
    exists e, __getitem__ i pv = (Ok e, pv) /\
              int (uuid e) = int (_root_uuid pv) + i /\
              0 <= int (_root_uuid pv) + i < 2 ^ 128.
Proof.
  intros _ _ Hinit <-.
  assert (Hreach : reachable (snd (resize_all lengths pv0))).
  { apply resize_all_reachable. by eapply reach_init. }
  split.
  - rewrite resize_all_root. by apply init_spec in Hinit as (_ & _ & -> & _).
  - intros L i HL Hi. rewrite len_unfold in HL. injection HL as <-.
    destruct (determinism_getitem _ i (reachable_determinism _ Hreach) Hi)
      as (e & Hget & _ & _ & Hid).
    exists e. split; [done|]. split; [done|].
    rewrite <- Hid. apply UUID_bound.
Qed.

Lemma determinism_after_resizes_witness :
  exists pv e,
    resize_all [1; 5; 2] theta3_pv = (Ok tt, pv) /\
    __getitem__ 1 pv = (Ok e, pv) /\
    int (uuid e) = int (_root_uuid pv) + 1.
Proof.
  destruct (determinism_after_resizes 1%nat "theta" 3 rnd0 [1; 5; 2]
              theta3_pv (snd (resize_all [1; 5; 2] theta3_pv))) as [_ Hall].
  - lia.
  - repeat constructor; lia.
  - vm_compute; reflexivity.
  - reflexivity.
  - destruct (Hall 2 1) as (e & He & Hid & _).
    + vm_compute; reflexivity.
    + lia.
    + eexists _, e. split; [vm_compute; reflexivity|]. by split.
Defined.

Lemma getitem_Ok_range (pv pv' : ParameterVector) (k : Z) (e : Element) :
  __getitem__ k pv = (Ok e, pv') ->
  - Py.len (_params pv) <= k < Py.len (_params pv).
Proof.
  rewrite getitem_unfold. intros [= He _].
  destruct (decide (- Py.len (_params pv) <= k < Py.len (_params pv))) as [|Hout];
    [done|].
  apply list_getitem_raises in Hout. congruence.
Qed.

(** Under the invariant, any key that [__getitem__] accepts yields the
    identity of the position the key denotes. *)
Lemma determinism_getitem_key (pv : ParameterVector) (k : Z) :
  determinism pv ->
  - Py.len (_params pv) <= k < Py.len (_params pv) ->
  exists e, __getitem__ k pv = (Ok e, pv) /\
            int (uuid e) =
            int (_root_uuid pv) + (if k <? 0 then k + Py.len (_params pv) else k).
Proof.
  intros Hinv Hk. destruct (Z.ltb_spec k 0) as [Hneg|Hpos].
  - rewrite getitem_unfold, list_getitem_negative, <- getitem_unfold by lia.
    destruct (determinism_getitem pv (k + Py.len (_params pv)) Hinv)
      as (e & He & _ & _ & Hid); [lia|]. by exists e.
  - destruct (determinism_getitem pv k Hinv) as (e & He & _ & _ & Hid); [lia|].
    by exists e.
Qed.

(** ** Shrinking and growing back *)

(** C2: on a vector of length [L], capture [e = S[k]] for some [k < L],
    resize to some [m <= k] and then back to [L]: both calls return, and
    [S[k]] is again an element with the identity of [e]. *)
Theorem shrink_grow_round_trip
    (pv : ParameterVector) (L k m : Z) (e : Element) :
  reachable pv ->
  __len__ pv = (Ok L, pv) ->
  k < L -> m <= k ->
  __getitem__ k pv = (Ok e, pv) ->
  exists pv1 pv2 e',
    resize m pv = (Ok tt, pv1) /\
    resize L pv1 = (Ok tt, pv2) /\
    __getitem__ k pv2 = (Ok e', pv2) /\
    uuid e' = uuid e.
Proof.
  intros Hreach HL HkL Hmk Hget.
  rewrite len_unfold in HL. injection HL as <-.
  pose proof (reachable_determinism _ Hreach) as Hinv.
  pose proof (getitem_Ok_range _ _ _ _ Hget) as Hk.
  pose proof (determinism_room _ Hinv) as Hroom.
  destruct (resize_succeeds m pv) as [pv1 H1]; [lia|].
  pose proof (resize_frame m pv) as (_ & _ & Hroot1).
  pose proof (resize_determinism m pv Hinv) as Hinv1.
  rewrite H1 in Hroot1, Hinv1. simpl in *.
  destruct (resize_succeeds (Py.len (_params pv)) pv1) as [pv2 H2];
    [right; by rewrite Hroot1|].
  pose proof (resize_frame (Py.len (_params pv)) pv1) as (_ & _ & Hroot2).
  pose proof (resize_determinism (Py.len (_params pv)) pv1 Hinv1) as Hinv2.
  rewrite H2 in Hroot2, Hinv2. simpl in *.
  pose proof (resize_len _ _ _ (len_nonneg _) H2) as Hlen2.
  destruct (determinism_getitem_key pv2 k Hinv2) as (e' & Hget' & Hid');
    [lia|].
  destruct (determinism_getitem_key pv k Hinv Hk) as (e0 & Hget0 & Hid0).
  assert (e0 = e) as -> by congruence.
  exists pv1, pv2, e'. repeat split; [done..|].
  apply UUID_eq. rewrite Hid', Hid0, Hlen2, Hroot2, Hroot1. done.
Qed.

Lemma theta3_reachable : reachable theta3_pv.
Proof. by apply (reach_init 1%nat "theta" 3 rnd0). Qed.

Lemma shrink_grow_round_trip_witness :
  exists e pv1 pv2 e',
    __getitem__ 2 theta3_pv = (Ok e, theta3_pv) /\
    resize 1 theta3_pv = (Ok tt, pv1) /\
    resize 3 pv1 = (Ok tt, pv2) /\
    __getitem__ 2 pv2 = (Ok e', pv2) /\
    uuid e' = uuid e.
Proof.
  exists (ParameterVectorElement 1%nat 2 (mkUUID 0x40008000000000000002 I)).
  destruct (shrink_grow_round_trip theta3_pv 3 2 1
              (ParameterVectorElement 1%nat 2 (mkUUID 0x40008000000000000002 I))
              theta3_reachable)
    as (pv1 & pv2 & e' & H1 & H2 & H3 & H4).
  - vm_compute; reflexivity.
  - lia.
  - lia.
  - vm_compute; reflexivity.
  - exists pv1, pv2, e'. split; [vm_compute; reflexivity|done].
Defined.

(** ** The postcondition of resize *)

(** C6: for a non-negative [n], a call [resize(n)] that returns leaves
    [len(self) = n]; when it grew the vector, the old elements are
    followed by new ones for the indices [L .. n-1] in ascending order,
    each with the identity root + index; when it shrank (or kept) the
    vector, the elements below [n] are the ones that were there.  The
    call returns exactly when the new identities fit 128 bits; otherwise
    it raises [ValueError] and leaves the vector as it was. *)
Theorem resize_postcondition (pv : ParameterVector) (n : Z) :
  0 <= n ->
  let L := Py.len (_params pv) in
  let root := int (_root_uuid pv) in
  ((n <= L \/ root + n <= 2 ^ 128) -> exists pv', resize n pv = (Ok tt, pv')) /\
  (~ (n <= L \/ root + n <= 2 ^ 128) -> resize n pv = (Raise ValueError, pv)) /\
  forall pv', resize n pv = (Ok tt, pv') ->
    __len__ pv' = (Ok n, pv') /\
    _root_uuid pv' = _root_uuid pv /\
    (L < n ->
       exists more, _params pv' = _params pv ++ more /\
         forall i, L <= i < n ->
           exists e, more !! Z.to_nat (i - L) = Some e /\
                     __getitem__ i pv' = (Ok e, pv') /\
                     index e = i /\ int (uuid e) = root + i) /\
    (n <= L ->
       _params pv' = take (Z.to_nat n) (_params pv) /\
       forall i, 0 <= i < n ->
         fst (__getitem__ i pv') = fst (__getitem__ i pv)).
Proof.
  intros Hn L root. subst L root. split; [apply resize_succeeds|].
  split; [intros Hbig; apply resize_overflows; lia|].
  intros pv' Hr. pose proof (resize_len _ _ _ Hn Hr) as Hlen.
  pose proof (resize_frame n pv) as (_ & _ & Hroot). rewrite Hr in Hroot.
  split; [by rewrite len_unfold, Hlen|]. split; [done|]. split.
  - intros Hgrow. apply resize_grow in Hr as (more & Hmore & ->); [|done].
    exists more. split; [done|]. intros i Hi. simpl in *.
    apply fresh_elements_spec in Hmore as [Hmlen Hmore].
    destruct (lookup_lt_is_Some_2 more (Z.to_nat (i - Py.len (_params pv))))
      as [e He]; [len_lia|].
    destruct (Hmore _ _ He) as (_ & Hidx & Hid).
    exists e. split; [done|]. rewrite getitem_unfold. simpl.
    pose proof (len_nonneg (_params pv)) as HL.
    destruct (list_getitem_index (_params pv ++ more) i) as (e' & He' & ->);
      [lia|].
    rewrite lookup_app_r in He' by len_lia.
    replace (Z.to_nat i - length (_params pv))%nat
      with (Z.to_nat (i - Py.len (_params pv))) in He' by len_lia.
    assert (e' = e) as -> by congruence.
    repeat split; [lia|]. rewrite Hid. lia.
  - intros Hshrink. rewrite resize_shrink in Hr by done. injection Hr as <-.
    simpl. rewrite list_del_from_take by done. split; [done|].
    intros i Hi.
    destruct (list_getitem_index (_params pv) i) as (e & He & ->); [lia|].
    destruct (list_getitem_index (take (Z.to_nat n) (_params pv)) i)
      as (e' & He' & ->).
    { unfold Py.len in *. rewrite length_take. lia. }
    apply lookup_take_Some in He' as [He' _]. congruence.
Qed.

Lemma resize_postcondition_witness :
  exists pv', resize 5 theta3_pv = (Ok tt, pv') /\ __len__ pv' = (Ok 5, pv').
Proof.
  destruct (resize_postcondition theta3_pv 5) as (Hret & _ & Hpost); [lia|].
  destruct Hret as [pv' Hr]; [right; vm_compute; discriminate|].
  exists pv'. split; [done|]. by destruct (Hpost pv' Hr) as [Hlen _].
Defined.

(** C7: [S.resize(len(S))] returns and leaves the object exactly as it
    was: same length, same element at every index. *)
Theorem resize_same_length_noop (pv : ParameterVector) :
  (L ← __len__; resize L) pv = (Ok tt, pv).
Proof.
  unfold mbind, M_bind. rewrite len_unfold.
  rewrite resize_shrink by lia.
  by rewrite list_del_from_len, pv_eta.
Qed.

(** ** Density of the stored indices *)

(** C8: in every state a vector can reach, the element at each position
    [i] below the length carries stored index [i]; in particular this
    holds for all [i] in [0, n) once a call [resize(n)] with non-negative
    [n] has returned. *)
Theorem index_density (pv : ParameterVector) :
  reachable pv ->
  (forall i, 0 <= i < Py.len (_params pv) ->
     exists e, __getitem__ i pv = (Ok e, pv) /\ index e = i) /\
  (forall n pv', 0 <= n -> resize n pv = (Ok tt, pv') ->
     forall i, 0 <= i < n ->
       exists e, __getitem__ i pv' = (Ok e, pv') /\ index e = i).
Proof.
  intros Hreach. split.
  - intros i Hi.
    destruct (determinism_getitem pv i (reachable_determinism _ Hreach) Hi)
      as (e & He & _ & Hidx & _). by exists e.
  - intros n pv' Hn Hr i Hi.
    pose proof (resize_determinism n pv (reachable_determinism _ Hreach)) as Hinv.
    rewrite Hr in Hinv. simpl in Hinv.
    destruct (determinism_getitem pv' i Hinv) as (e & He & _ & Hidx & _).
    + by rewrite (resize_len _ _ _ Hn Hr).
    + by exists e.
Qed.

Lemma index_density_witness :
  exists pv' e,
    resize 5 theta3_pv = (Ok tt, pv') /\
    __getitem__ 4 pv' = (Ok e, pv') /\ index e = 4.
Proof.
  destruct (index_density theta3_pv theta3_reachable) as [_ Hafter].
  destruct (Hafter 5 (snd (resize 5 theta3_pv))) with (i := 4)
    as (e & He & Hidx); [lia|vm_compute; reflexivity|lia|].
  eexists _, e. split; [vm_compute; reflexivity|]. by split.
Defined.

(** ** Negative lengths *)

(** With a negative length the slice deletion counts from the end. *)
Lemma resize_negative (pv : ParameterVector) (n : Z) :
  n < 0 ->
  resize n pv =
  (Ok tt, mkPV (self_id pv) (_name pv)
               (take (Z.to_nat (Z.max (Py.len (_params pv) + n) 0)) (_params pv))
               (_root_uuid pv)).
Proof.
  intros Hn. pose proof (len_nonneg (_params pv)).
  rewrite resize_shrink, list_del_from_negative by lia.
  by rewrite (Z.add_comm n).
Qed.

Lemma init_negative (self : ObjRef) (name : string) (n : Z) (rnd : UUID) :
  n <= 0 -> __init__ self name n rnd = Ok (mkPV self name [] (uuid4 rnd)).
Proof.
  intros Hn. unfold __init__, Py.range. by rewrite seqZ_nil by lia.
Qed.

(** C10: for a negative [n], [resize(n)] does not raise; it deletes the
    last [min(|n|, L)] elements, so the vector is left with length
    [max(L + n, 0)] and with its remaining prefix as it was. *)
Theorem resize_negative_truncates (pv : ParameterVector) (n : Z) :
  n < 0 ->
  exists pv' dropped,
    resize n pv = (Ok tt, pv') /\
    _params pv = _params pv' ++ dropped /\
    Py.len dropped = Z.min (Z.abs n) (Py.len (_params pv)) /\
    __len__ pv' = (Ok (Z.max (Py.len (_params pv) + n) 0), pv') /\
    self_id pv' = self_id pv /\ _name pv' = _name pv /\
    _root_uuid pv' = _root_uuid pv.
Proof.
  intros Hn. rewrite resize_negative by done.
  set (keep := Z.to_nat (Z.max (Py.len (_params pv) + n) 0)).
  eexists _, (drop keep (_params pv)). split; [done|]. simpl.
  split; [by rewrite take_drop|].
  rewrite len_unfold. simpl. unfold Py.len.
  rewrite length_drop, length_take. subst keep. unfold Py.len.
  repeat split; [lia|]. f_equal. f_equal. lia.
Qed.

Lemma resize_negative_truncates_witness :
  exists pv' dropped,
    resize (-2) theta3_pv = (Ok tt, pv') /\
    _params theta3_pv = _params pv' ++ dropped /\
    Py.len dropped = 2 /\ __len__ pv' = (Ok 1, pv').
Proof.
  destruct (resize_negative_truncates theta3_pv (-2))
    as (pv' & dropped & Hr & Happ & Hdrop & Hlen & _); [lia|].
  by exists pv', dropped.
Defined.

(** C4 as the code has it: a negative length is not rejected.  The
    constructor returns an empty vector, and [resize] returns after
    truncating from the end. *)
Theorem negative_length_accepted
    (self : ObjRef) (name : string) (n : Z) (rnd : UUID) :
  n < 0 ->
  __init__ self name n rnd = Ok (mkPV self name [] (uuid4 rnd)) /\
  forall pv, exists pv',
    resize n pv = (Ok tt, pv') /\
    Py.len (_params pv') = Z.max (Py.len (_params pv) + n) 0.
Proof.
  intros Hn. split; [apply init_negative; lia|].
  intros pv. rewrite resize_negative by done. eexists. split; [done|].
  simpl. unfold Py.len. rewrite length_take. lia.
Qed.

Lemma negative_length_accepted_witness :
  __init__ 1%nat "theta" (-1) rnd0 = Ok (mkPV 1%nat "theta" [] (uuid4 rnd0)) /\
  exists pv', resize (-1) theta3_pv = (Ok tt, pv') /\ Py.len (_params pv') = 2.
Proof.
  destruct (negative_length_accepted 1%nat "theta" (-1) rnd0) as [Hinit Hres];
    [lia|].
  split; [done|]. destruct (Hres theta3_pv) as (pv' & Hr & Hlen). by exists pv'.
Defined.

(** C4 as stated fails: neither [ParameterVector("theta", -1)] nor
    [resize(-1)] raises. *)
Lemma negative_length_counterexample :
  ~ raises (__init__ 1%nat "theta" (-1) rnd0) /\
  ~ raises (fst (resize (-1) theta3_pv)).
Proof.
  split; intros [x Hx]; vm_compute in Hx; discriminate.
Qed.

(** ** Indexing *)

(** C5 as the code has it: [S[i]] never changes the vector; it raises
    (and then [IndexError]) exactly when [i] lies outside
    [-len(S) .. len(S)-1]; for [i] in [0, len(S)) it returns the element
    at position [i], and for [i] in [-len(S), 0) the element at position
    [len(S) + i]. *)
Theorem getitem_spec (pv : ParameterVector) (i : Z) :
  snd (__getitem__ i pv) = pv /\
  (fst (__getitem__ i pv) = Raise IndexError <->
     ~ (- Py.len (_params pv) <= i < Py.len (_params pv))) /\
  (forall x, fst (__getitem__ i pv) = Raise x -> x = IndexError) /\
  (0 <= i < Py.len (_params pv) ->
     exists e, _params pv !! Z.to_nat i = Some e /\
               fst (__getitem__ i pv) = Ok e) /\
  (- Py.len (_params pv) <= i < 0 ->
     fst (__getitem__ i pv) = fst (__getitem__ (i + Py.len (_params pv)) pv)).
Proof.
  rewrite !getitem_unfold. simpl. split; [done|].
  split; [apply list_getitem_raises|].
  split; [apply list_getitem_exn|].
  split; [apply list_getitem_index|apply list_getitem_negative].
Qed.

(** C5 as stated fails: [-1] is outside [0, len(S)), yet [S[-1]] returns
    the last element. *)
Lemma getitem_negative_counterexample :
  ~ (fst (__getitem__ (-1) theta3_pv) = Raise IndexError <->
     ~ (0 <= -1 < Py.len (_params theta3_pv))).
Proof.
  intros [_ Hout]. assert (Hx := Hout ltac:(lia)).
  vm_compute in Hx. discriminate.
Qed.

Example getitem_last : fst (__getitem__ (-1) theta3_pv) = fst (__getitem__ 2 theta3_pv).
Proof. reflexivity. Qed.

(** ** The identity sum at the edge of the 128-bit space *)

(** C9 as the code has it: the identity of element [i] is the plain
    integer sum root + [i], which [UUID] then checks: when the sum is a
    128-bit value the element is created with it (and nothing wraps);
    otherwise the creation raises [ValueError], and so does the [resize]
    or the constructor call that asked for it, leaving a resized vector
    untouched. *)
Theorem identity_is_checked_sum (self : ObjRef) (root : UUID) (i : Z) :
  (0 <= int root + i < 2 ^ 128 ->
     exists e, make_element self (int root) i = Ok e /\
               vector e = self /\ index e = i /\
               int (uuid e) = int root + i /\
               int (uuid e) = (int root + i) mod 2 ^ 128) /\
  (~ (0 <= int root + i < 2 ^ 128) ->
     make_element self (int root) i = Raise ValueError) /\
  (forall pv n, _root_uuid pv = root -> Py.len (_params pv) <= i < n ->
     2 ^ 128 <= int root + i -> resize n pv = (Raise ValueError, pv)) /\
  (forall name n rnd, uuid4 rnd = root -> 0 <= i < n ->
     2 ^ 128 <= int root + i -> __init__ self name n rnd = Raise ValueError).
Proof.
  split; [|split; [apply make_element_Raise|split]].
  - intros Hfit. destruct (make_element_Ok self (int root) i Hfit)
      as (e & He & Hv & Hidx & Hid).
    exists e. repeat split; [done..|]. rewrite Hid. by rewrite Z.mod_small.
  - intros pv n <- Hi Hbig. apply resize_overflows; lia.
  - intros name n rnd <- Hi Hbig. unfold __init__. cbv zeta.
    rewrite fresh_elements_Raise; [done|lia| |lia].
    pose proof (UUID_bound (uuid4 rnd)). lia.
Qed.

(** C9 as stated fails: with the largest root identity, index 1 does not
    wrap to identity 0; the element is not created, and a [resize] that
    needs it raises. *)
Lemma wraparound_counterexample :
  2 ^ 128 <= int max_root + 1 /\
  make_element 0%nat (int max_root) 1 = Raise ValueError /\
  _root_uuid edge_pv = max_root /\
  resize 2 edge_pv = (Raise ValueError, edge_pv).
Proof.
  split; [by vm_compute|]. split; [by vm_compute|]. split; [done|].
  by vm_compute.
Qed.

(** ** Pickling *)

Lemma getstate_setstate (src self0 : ParameterVector) (st : pickled) :
  fst (__getstate__ src) = Ok st ->
  _params (snd (__setstate__ st self0)) = _params src /\
  _root_uuid (snd (__setstate__ st self0)) = _root_uuid src /\
  _name (snd (__setstate__ st self0)) = _name src.
Proof.
  intros [= <-]. simpl. split; [|done].
  rewrite <- list_fmap_compose. rewrite <- (list_fmap_id (_params src)) at 2.
  apply list_fmap_ext. by intros _ [] _.
Qed.

(** C3 as the code has it: [__setstate__] takes the name and the root
    from the state and rebuilds each element from its stored payload, so
    the element at position [k] has the index and the identity the [k]-th
    payload stores.  These identities are root + index when the state is
    what [__getstate__] returned on a vector in a reachable state. *)
Theorem setstate_replays_payload
    (name : string) (ps : list payload) (root : UUID) (self0 : ParameterVector) :
  let pv := snd (__setstate__ (name, ps, root) self0) in
  fst (__setstate__ (name, ps, root) self0) = Ok tt /\
  _name pv = name /\ _root_uuid pv = root /\
  __len__ pv = (Ok (Py.len ps), pv) /\
  (forall (k : nat) v i u, ps !! k = Some (v, i, u) ->
     __getitem__ (Z.of_nat k) pv = (Ok (ParameterVectorElement v i u), pv)) /\
  (forall src, reachable src -> fst (__getstate__ src) = Ok (name, ps, root) ->
     forall i, 0 <= i < Py.len ps ->
       exists e, __getitem__ i pv = (Ok e, pv) /\
                 index e = i /\ int (uuid e) = int root + i).
Proof.
  intros pv. subst pv. simpl.
  split; [done|]. split; [done|]. split; [done|]. split; [|split].
  - rewrite len_unfold. simpl. unfold Py.len. by rewrite length_fmap.
  - intros k v i u Hk. rewrite getitem_unfold. simpl.
    destruct (list_getitem_index (element_of_payload <$> ps) (Z.of_nat k))
      as (e & He & ->).
    { apply lookup_lt_Some in Hk. unfold Py.len.
      rewrite length_fmap. lia. }
    rewrite Nat2Z.id, list_lookup_fmap, Hk in He. simpl in He. congruence.
  - intros src Hreach Hst i Hi.
    destruct (getstate_setstate src self0 _ Hst) as (Hps & Hroot & _).
    simpl in Hps, Hroot. subst root.
    set (pv := mkPV _ _ _ _).
    assert (Hinv : determinism (mkPV (self_id src) name
                                     (element_of_payload <$> ps) (_root_uuid src))).
    { rewrite Hps. intros k e Hk. by apply (reachable_determinism src Hreach). }
    destruct (list_getitem_index (element_of_payload <$> ps) i) as (e & He & Hget).
    { unfold Py.len in *. rewrite length_fmap. lia. }
    exists e. split; [by rewrite getitem_unfold; simpl; rewrite Hget|].
    destruct (Hinv _ _ He) as (_ & Hidx & Hid). simpl in *. lia.
Qed.

(** C3 as stated fails: the state stores identity 5 in the payload of
    index 0 under root identity 0, and the rebuilt element has identity
    5, not 0 + 0. *)
Lemma setstate_counterexample :
  exists e,
    __getitem__ 0 (snd (__setstate__ forged blank))
      = (Ok e, snd (__setstate__ forged blank)) /\
    int (uuid e) = 5 /\
    int (uuid e) <> int (_root_uuid (snd (__setstate__ forged blank))) + 0.
Proof.
  eexists. split; [reflexivity|]. by vm_compute.
Qed.

(** ** The amended statements at concrete inputs *)

Lemma getitem_spec_witness :
  exists e, _params theta3_pv !! 1%nat = Some e /\
            fst (__getitem__ 1 theta3_pv) = Ok e.
Proof.
  destruct (getitem_spec theta3_pv 1) as (_ & _ & _ & Hin & _).
  apply Hin. unfold Py.len. simpl. lia.
Defined.

Lemma identity_is_checked_sum_witness :
  exists e, make_element 1%nat (int (uuid4 rnd0)) 2 = Ok e /\
            int (uuid e) = int (uuid4 rnd0) + 2.
Proof.
  destruct (identity_is_checked_sum 1%nat (uuid4 rnd0) 2) as (Hfit & _).
  destruct Hfit as (e & He & _ & _ & Hid & _).
  - split; [by vm_compute|by vm_compute].
  - by exists e.
Defined.

Lemma setstate_replays_payload_witness :
  exists e,
    fst (__getitem__ 2
           (snd (__setstate__
                   ("theta", element_getstate <$> _params theta3_pv, uuid4 rnd0)
                   blank))) = Ok e /\
    index e = 2 /\ int (uuid e) = int (uuid4 rnd0) + 2.
Proof.
  destruct (setstate_replays_payload
              "theta" (element_getstate <$> _params theta3_pv) (uuid4 rnd0) blank)
    as (_ & _ & _ & _ & _ & Hround).
  destruct (Hround theta3_pv theta3_reachable eq_refl 2) as (e & He & Hidx & Hid).
  - unfold Py.len. simpl. lia.
  - exists e. by rewrite He.
Defined.

(** ** Searching a list *)

Section list_index.
Context {A : Type} (eqb : A -> A -> bool).
Implicit Types (l : list A) (value : A).

Lemma list_index_from_found l value (i0 : Z) (k : nat) (x : A) :
  l !! k = Some x -> eqb x value = true ->
  (forall (j : nat) y, (j < k)%nat -> l !! j = Some y -> eqb y value = false) ->
  Py.list_index_from eqb l value i0 = Ok (i0 + Z.of_nat k).
Proof.
  revert i0 k. induction l as [|a l IH]; intros i0 k Hk Hx Hfirst; [done|].
  destruct k as [|k]; simpl in *.
  - injection Hk as ->. rewrite Hx. f_equal. lia.
  - rewrite (Hfirst 0%nat a) by (done || lia).
    rewrite (IH (i0 + 1) k Hk Hx).
    + f_equal. lia.
    + intros j y Hj Hy. apply (Hfirst (S j) y); [lia|done].
Qed.

Lemma list_index_from_missing l value (i0 : Z) :
  Forall (fun x => eqb x value = false) l ->
  Py.list_index_from eqb l value i0 = Raise ValueError.
Proof.
  intros Hall. revert i0. induction Hall as [|a l Ha _ IH]; intros i0; [done|].
  simpl. by rewrite Ha.
Qed.


End list_index.

Lemma element_eqb_true (a b : Element) :
  element_eqb a b = true <-> uuid a = uuid b.
Proof.
  unfold element_eqb. rewrite bool_decide_eq_true.
  split; [apply UUID_eq|by intros ->].
Qed.

Lemma element_eqb_false (a b : Element) :
  element_eqb a b = false <-> uuid a <> uuid b.
Proof.
  rewrite <- element_eqb_true. by destruct (element_eqb a b).
Qed.

Lemma index_of_unfold (value : Element) (pv : ParameterVector) :
  index_of value pv = (Py.list_index element_eqb (_params pv) value, pv).
Proof. reflexivity. Qed.

(** ** index *)


Lemma determinism_identities (pv : ParameterVector) :
  determinism pv -> identities pv.
Proof. intros Hinv k e Hk. by destruct (Hinv k e Hk) as (_ & ? & ?). Qed.

Lemma reachable_identities (pv : ParameterVector) :
  reachable pv -> identities pv.
Proof. intros Hreach. by apply determinism_identities, reachable_determinism. Qed.

(** Where the identities are root + position, the scan of [index] finds
    an element by the offset of its identity from the root. *)
Lemma identities_index_of (pv : ParameterVector) (value : Element) :
  identities pv ->
  index_of value pv =
  (if decide (0 <= int (uuid value) - int (_root_uuid pv) < Py.len (_params pv))
   then Ok (int (uuid value) - int (_root_uuid pv))
   else Raise ValueError, pv).
Proof.
  intros Hinv. rewrite index_of_unfold. f_equal. unfold Py.list_index.
  destruct (decide _) as [Hin|Hout].
  - set (k := Z.to_nat (int (uuid value) - int (_root_uuid pv))).
    destruct (lookup_lt_is_Some_2 (_params pv) k) as [e He]; [len_lia|].
    destruct (Hinv k e He) as [_ Hid].
    rewrite (list_index_from_found element_eqb _ value 0 k e He).
    + f_equal. lia.
    + apply element_eqb_true, UUID_eq. lia.
    + intros j y Hj Hy. destruct (Hinv j y Hy) as [_ Hidj].
      apply element_eqb_false. intros Heq. rewrite Heq in Hidj. lia.
  - apply list_index_from_missing, Forall_lookup. intros j y Hy.
    destruct (Hinv j y Hy) as [_ Hidj]. apply lookup_lt_Some in Hy.
    apply element_eqb_false. intros Heq. rewrite Heq in Hidj.
    destruct Hout. len_lia.
Qed.



(** X3: in a vector built by the constructor and resized, [index] undoes
    indexing: if [S[k]] returns [e], then [S.index(e)] returns the
    position [k] denotes ([k] itself, or [len(S) + k] for a negative
    [k]), and indexing at that position returns [e] again. *)
Theorem index_of_getitem (pv : ParameterVector) (k : Z) (e : Element) :
  reachable pv ->
  __getitem__ k pv = (Ok e, pv) ->
  let p := if k <? 0 then k + Py.len (_params pv) else k in
  index_of e pv = (Ok p, pv) /\ __getitem__ p pv = (Ok e, pv).
Proof.
  intros Hreach Hget p.
  pose proof (reachable_determinism _ Hreach) as Hinv.
  pose proof (getitem_Ok_range _ _ _ _ Hget) as Hk.
  destruct (determinism_getitem_key pv k Hinv Hk) as (e' & Hget' & Hid).
  assert (e' = e) as -> by congruence. fold p in Hid.
  assert (Hp : 0 <= p < Py.len (_params pv)).
  { subst p. destruct (Z.ltb_spec k 0); lia. }
  split.
  - rewrite (identities_index_of _ _ (determinism_identities _ Hinv)).
    destruct (decide _) as [_|Hout]; [|destruct Hout; lia].
    do 2 f_equal. lia.
  - destruct (determinism_getitem pv p Hinv Hp) as (e' & Hgetp & _ & _ & Hidp).
    rewrite Hgetp. do 2 f_equal.
    destruct (list_getitem_index (_params pv) p Hp) as (x & Hx & Hgx).
    rewrite getitem_unfold, Hgx in Hgetp. injection Hgetp as ->.
    subst p. rewrite getitem_unfold in Hget. injection Hget as Hget.
    destruct (Z.ltb_spec k 0).
    + rewrite list_getitem_negative in Hget by lia. congruence.
    + congruence.
Qed.

Lemma index_of_getitem_witness :
  exists e, __getitem__ (-1) theta3_pv = (Ok e, theta3_pv) /\
            index_of e theta3_pv = (Ok 2, theta3_pv) /\
            __getitem__ 2 theta3_pv = (Ok e, theta3_pv).
Proof.
  eexists. split; [reflexivity|].
  apply (index_of_getitem theta3_pv (-1) _ theta3_reachable). reflexivity.
Defined.



(** ** Distinct identities *)

(** X5: in a vector built by the constructor and resized, the elements at
    two different positions never share an identity, so no two of them
    compare equal. *)
Theorem identities_distinct
    (pv : ParameterVector) (i j : Z) (a b : Element) :
  reachable pv ->
  0 <= i -> 0 <= j -> i <> j ->
  __getitem__ i pv = (Ok a, pv) -> __getitem__ j pv = (Ok b, pv) ->
  uuid a <> uuid b /\ element_eqb a b = false.
Proof.
  intros Hreach Hi Hj Hne Ha Hb.
  pose proof (reachable_determinism _ Hreach) as Hinv.
  pose proof (getitem_Ok_range _ _ _ _ Ha) as Hri.
  pose proof (getitem_Ok_range _ _ _ _ Hb) as Hrj.
  destruct (determinism_getitem pv i Hinv) as (a' & Ha' & _ & _ & Hida); [lia|].
  destruct (determinism_getitem pv j Hinv) as (b' & Hb' & _ & _ & Hidb); [lia|].
  assert (a' = a) as -> by congruence. assert (b' = b) as -> by congruence.
  assert (Hneq : uuid a <> uuid b) by (intros Heq; rewrite Heq in Hida; lia).
  split; [done|by apply element_eqb_false].
Qed.

Lemma identities_distinct_witness :
  exists a b,
    __getitem__ 0 theta3_pv = (Ok a, theta3_pv) /\
    __getitem__ 2 theta3_pv = (Ok b, theta3_pv) /\
    uuid a <> uuid b.
Proof.
  eexists _, _. split; [reflexivity|]. split; [reflexivity|].
  by destruct (identities_distinct theta3_pv 0 2 _ _ theta3_reachable
                 ltac:(lia) ltac:(lia) ltac:(lia) eq_refl eq_refl).
Defined.

(** ** Pickling round trip *)

(** X6: [__getstate__] does not change the vector, and feeding its result
    to [__setstate__] on any object gives that object the same name, the
    same elements (owner, index and identity) and the same root, whatever
    its slots held before; reading the state back returns the same
    state. *)
Theorem pickle_round_trip (src target : ParameterVector) :
  exists st,
    __getstate__ src = (Ok st, src) /\
    fst (__setstate__ st target) = Ok tt /\
    let pv := snd (__setstate__ st target) in
    self_id pv = self_id target /\
    _name pv = _name src /\ _params pv = _params src /\
    _root_uuid pv = _root_uuid src /\
    __getstate__ pv = (Ok st, pv).
Proof.
  eexists. split; [reflexivity|]. split; [reflexivity|]. intros pv.
  destruct (getstate_setstate src target _ eq_refl) as (Hps & Hroot & Hname).
  fold pv in Hps, Hroot, Hname.
  split; [done|]. split; [done|]. split; [done|]. split; [done|].
  unfold __getstate__. by rewrite Hps, Hroot, Hname.
Qed.

(** ** Resizing an unpickled vector *)

Lemma resize_identities (n : Z) (pv : ParameterVector) :
  identities pv -> identities (snd (resize n pv)).
Proof.
  intros Hinv. rewrite resize_unfold.
  destruct (Z.ltb_spec (Py.len (_params pv)) n) as [Hlt|Hge].
  - destruct (Py.comprehension _ _) as [more|x] eqn:Hc; [|done]. simpl.
    apply fresh_elements_spec in Hc as [_ Hmore].
    intros k e Hk. simpl in *. apply lookup_app_Some in Hk as [Hk|[Hlen Hk]].
    + by apply Hinv.
    + destruct (Hmore _ _ Hk) as (_ & Hi & Hu). split; len_lia.
  - simpl. intros k e Hk. simpl in *. unfold Py.list_del_from in Hk.
    apply lookup_take_Some in Hk as [Hk _]. by apply Hinv.
Qed.

Lemma resize_all_identities (lengths : list Z) (pv : ParameterVector) :
  identities pv -> identities (snd (resize_all lengths pv)).
Proof.
  revert pv. induction lengths as [|n rest IH]; intros pv Hinv; [done|].
  simpl. unfold mbind, M_bind.
  pose proof (resize_identities n pv Hinv) as Hstep.
  destruct (resize n pv) as [[[]|x] pv1]; simpl in *; [by apply IH|done].
Qed.

(** X7: determinism survives pickling.  Take the state of a vector built
    by the constructor and resized, load it into any object with
    [__setstate__], and resize that object any number of times: every
    position [i] below the length holds an element with index [i] and
    identity root + [i], the root being the pickled vector's. *)
Theorem unpickled_resize_identities
    (src target pv : ParameterVector) (st : pickled) (lengths : list Z) :
  reachable src ->
  fst (__getstate__ src) = Ok st ->
  snd (resize_all lengths (snd (__setstate__ st target))) = pv ->
  _root_uuid pv = _root_uuid src /\
  forall i, 0 <= i < Py.len (_params pv) ->
    exists e, __getitem__ i pv = (Ok e, pv) /\
              index e = i /\ int (uuid e) = int (_root_uuid src) + i.
Proof.
  intros Hreach Hst <-.
  destruct (getstate_setstate src target st Hst) as (Hps & Hroot & _).
  set (pv0 := snd (__setstate__ st target)) in *.
  assert (Hinv0 : identities pv0).
  { intros k e Hk. rewrite Hps in Hk. rewrite Hroot.
    by apply (reachable_identities src Hreach). }
  pose proof (resize_all_identities lengths pv0 Hinv0) as Hinv.
  pose proof (resize_all_root lengths pv0) as Hr. rewrite Hroot in Hr.
  split; [done|]. intros i Hi. rewrite getitem_unfold.
  destruct (list_getitem_index _ i Hi) as (e & He & ->).
  exists e. split; [done|]. destruct (Hinv _ _ He) as [Hidx Hid].
  rewrite Hr in Hid. split; lia.
Qed.

Lemma unpickled_resize_identities_witness :
  exists st pv e,
    fst (__getstate__ theta3_pv) = Ok st /\
    snd (resize_all [1; 4] (snd (__setstate__ st blank))) = pv /\
    __getitem__ 3 pv = (Ok e, pv) /\
    index e = 3 /\ int (uuid e) = int (_root_uuid theta3_pv) + 3.
Proof.
  eexists _, _. 
  destruct (unpickled_resize_identities theta3_pv blank _ _ [1; 4]
              theta3_reachable eq_refl eq_refl) as [_ Hall].
  destruct (Hall 3) as (e & He & Hidx & Hid); [by vm_compute|].
  exists e. split; [reflexivity|]. split; [reflexivity|]. by split.
Defined.

(** ** Room above a version-4 root *)







(** ** Construction as a resize *)

(** X10: constructing with length [n] is constructing the empty vector
    and resizing it to [n]: the two return the same vector, or raise the
    same exception, in which case the empty vector is left as it was. *)
Theorem init_as_resize (self : ObjRef) (nm : string) (n : Z) (rnd : UUID) :
  exists empty,
    __init__ self nm 0 rnd = Ok empty /\
    resize n empty =
    match __init__ self nm n rnd with
    | Ok pv => (Ok tt, pv)
    | Raise x => (Raise x, empty)
    end.
Proof.
  exists (mkPV self nm [] (uuid4 rnd)). split; [by apply init_negative|].
  rewrite resize_unfold. simpl. change (Py.len []) with 0.
  destruct (Z.ltb_spec 0 n) as [Hpos|Hneg].
  - unfold __init__. cbv zeta.
    by destruct (Py.comprehension _ _).
  - rewrite init_negative by done. unfold Py.list_del_from. by rewrite take_nil.
Qed.

(** ** The last resize decides *)

(** Two states with the same owner, name, root and length that both keep
    the invariant are the same state. *)
Lemma determinism_canonical (pv pv' : ParameterVector) :
  determinism pv -> determinism pv' ->
  self_id pv = self_id pv' -> _name pv = _name pv' ->
  _root_uuid pv = _root_uuid pv' ->
  Py.len (_params pv) = Py.len (_params pv') ->
  pv = pv'.
Proof.
  intros Hinv Hinv' Hself Hname Hroot Hlen.
  destruct pv as [s nm l r], pv' as [s' nm' l' r']. simpl in *. subst s' nm' r'.
  f_equal. apply list_eq_same_length with (length l); [len_lia|len_lia|].
  intros k e e' _ He He'.
  destruct (Hinv k e He) as (Hv & Hi & Hu).
  destruct (Hinv' k e' He') as (Hv' & Hi' & Hu'). simpl in *.
  destruct e as [v i u], e' as [v' i' u']. simpl in *. subst.
  f_equal. apply UUID_eq. lia.
Qed.

(** X11: in a vector built by the constructor and resized, the outcome of
    [resize(b)], [b >= 0], does not depend on a resize made just before
    it: if [resize(a)] and then [resize(b)] return, then [resize(b)]
    alone returns, with the very same vector. *)
Theorem resize_last_wins (pv pv1 pv2 : ParameterVector) (a b : Z) :
  reachable pv -> 0 <= b ->
  resize a pv = (Ok tt, pv1) -> resize b pv1 = (Ok tt, pv2) ->
  resize b pv = (Ok tt, pv2).
Proof.
  intros Hreach Hb H1 H2.
  pose proof (reachable_determinism _ Hreach) as Hinv.
  pose proof (resize_determinism a pv Hinv) as Hinv1.
  pose proof (resize_frame a pv) as (Hs1 & Hn1 & Hr1).
  rewrite H1 in Hinv1, Hs1, Hn1, Hr1. simpl in *.
  pose proof (resize_determinism b pv1 Hinv1) as Hinv2.
  pose proof (resize_frame b pv1) as (Hs2 & Hn2 & Hr2).
  rewrite H2 in Hinv2, Hs2, Hn2, Hr2. simpl in *.
  pose proof (resize_len _ _ _ Hb H2) as Hlen2.
  pose proof (determinism_room _ Hinv2) as Hroom.
  destruct (resize_succeeds b pv) as [pv3 H3].
  { right. rewrite <- Hr1, <- Hr2, <- Hlen2. done. }
  pose proof (resize_determinism b pv Hinv) as Hinv3.
  pose proof (resize_frame b pv) as (Hs3 & Hn3 & Hr3).
  rewrite H3 in Hinv3, Hs3, Hn3, Hr3. simpl in *.
  pose proof (resize_len _ _ _ Hb H3) as Hlen3.
  rewrite H3. f_equal. apply determinism_canonical; try done; congruence.
Qed.

Lemma resize_last_wins_witness :
  exists pv2, resize 4 (snd (resize 1 theta3_pv)) = (Ok tt, pv2) /\
              resize 4 theta3_pv = (Ok tt, pv2).
Proof.
  eexists. split; [reflexivity|].
  apply (resize_last_wins theta3_pv (snd (resize 1 theta3_pv)) _ 1 4
           theta3_reachable); [lia|reflexivity|reflexivity].
Defined.

(** ** Indexing past a resize *)

(** X12: once [resize(n)], [n >= 0], has returned, indexing at any
    [i >= n] or [i < -n] raises [IndexError] and leaves the vector as the
    resize left it. *)
Theorem getitem_beyond_resize (pv pv' : ParameterVector) (n i : Z) :
  0 <= n -> resize n pv = (Ok tt, pv') ->
  n <= i \/ i < - n ->
  __getitem__ i pv' = (Raise IndexError, pv').
Proof.
  intros Hn Hr Hi. rewrite getitem_unfold. f_equal.
  apply list_getitem_raises. rewrite (resize_len _ _ _ Hn Hr). lia.
Qed.

Lemma getitem_beyond_resize_witness :
  __getitem__ 2 (snd (resize 2 theta3_pv))
  = (Raise IndexError, snd (resize 2 theta3_pv)).
Proof.
  apply (getitem_beyond_resize theta3_pv _ 2 2); [lia|reflexivity|lia].
Defined.

(** ** The name *)

Lemma resize_all_name (lengths : list Z) (pv : ParameterVector) :
  _name (snd (resize_all lengths pv)) = _name pv.
Proof.
  revert pv. induction lengths as [|n rest IH]; intros pv; [done|].
  simpl. unfold mbind, M_bind.
  destruct (resize_frame n pv) as (_ & Hname & _).
  destruct (resize n pv) as [[[]|x] pv1]; simpl in *; [|done].
  by rewrite IH.
Qed.

(** X13: the name given to the constructor is the name the vector
    reports after any run of resizes, whether or not one of them raised;
    [__getnewargs__] returns that name with the length [len] reports,
    and neither call changes the vector. *)
Theorem name_fixed
    (self : ObjRef) (nm : string) (length : Z) (rnd : UUID)
    (lengths : list Z) (pv0 pv : ParameterVector) :
  __init__ self nm length rnd = Ok pv0 ->
  snd (resize_all lengths pv0) = pv ->
  name pv = (Ok nm, pv) /\
  exists n, __len__ pv = (Ok n, pv) /\ __getnewargs__ pv = (Ok (nm, n), pv).
Proof.
  intros Hinit <-. apply init_spec in Hinit as (_ & Hname & _).
  pose proof (resize_all_name lengths pv0) as Hrun. rewrite Hname in Hrun.
  split.
  - unfold name, gets. by rewrite Hrun.
  - eexists. split; [apply len_unfold|].
    unfold __getnewargs__. by rewrite Hrun.
Qed.

Lemma name_fixed_witness :
  name (snd (resize_all [1; 5] theta3_pv))
  = (Ok "theta", snd (resize_all [1; 5] theta3_pv)).
Proof.
  by destruct (name_fixed 1%nat "theta" 3 rnd0 [1; 5] theta3_pv _ eq_refl eq_refl)
    as [Hname _].
Defined.

(** ** Iteration *)

Lemma next_unfold (i : nat) (pv : ParameterVector) :
  __next__ (Some i) pv =
  match _params pv !! i with
  | Some x => (Ok (Some x, Some (S i)), pv)
  | None => (Ok (None, None), pv)
  end.
Proof.
  unfold __next__, params, mbind, M_bind, gets. simpl.
  by destruct (_params pv !! i).
Qed.

Lemma collect_unfold (fuel : nat) (it : list_iterator) (pv : ParameterVector) :
  collect (S fuel) it pv =
  match __next__ it pv with
  | (Ok (Some e, it'), pv') =>
      match collect fuel it' pv' with
      | (Ok r, pv'') => (Ok (cons e <$> r), pv'')
      | (Raise x, pv'') => (Raise x, pv'')
      end
  | (Ok (None, _), pv') => (Ok (Some []), pv')
  | (Raise x, pv') => (Raise x, pv')
  end.
Proof.
  cbn [collect]. unfold mbind, M_bind.
  by destruct (__next__ it pv) as [[[[e|] it']|x] pv'].
Qed.

(** From position [k], the iterator yields the rest of the list. *)
Lemma collect_drop (fuel k : nat) (pv : ParameterVector) :
  (length (_params pv) - k < fuel)%nat ->
  collect fuel (Some k) pv = (Ok (Some (drop k (_params pv))), pv).
Proof.
  revert k. induction fuel as [|fuel IH]; intros k Hfuel; [lia|].
  rewrite collect_unfold, next_unfold.
  destruct (_params pv !! k) as [x|] eqn:Hk.
  - rewrite IH.
    + simpl. by rewrite (drop_S _ _ _ Hk).
    + apply lookup_lt_Some in Hk. lia.
  - apply lookup_ge_None in Hk. by rewrite drop_ge.
Qed.

Lemma getitem_all {A} (l : list A) :
  Py.comprehension (Py.list_getitem l) (Py.range 0 (Py.len l)) = Ok l.
Proof.
  apply comprehension_Forall2, Forall2_same_length_lookup. split.
  - unfold Py.range, Py.len. rewrite length_seqZ. lia.
  - intros k i x Hi Hx. apply lookup_seqZ in Hi as [-> Hk].
    destruct (list_getitem_index l (0 + Z.of_nat k)) as (y & Hy & ->); [lia|].
    rewrite Z.add_0_l, Nat2Z.id in Hy. congruence.
Qed.

(** X14: iterating over a vector that is not mutated meanwhile yields
    [S[0], S[1], ..., S[len(S)-1]] in this order and then stops: a fresh
    iterator drained with more than [len(S)] calls of [next] returns the
    list that indexing at [0 .. len(S)-1] returns, the vector is left
    unchanged, and the exhausted iterator yields nothing more. *)
Theorem iteration_yields_elements (pv : ParameterVector) (fuel : nat) :
  (length (_params pv) < fuel)%nat ->
  exists items,
    (it ← __iter__; collect fuel it) pv = (Ok (Some items), pv) /\
    Py.comprehension (fun i => fst (__getitem__ i pv))
                     (Py.range 0 (Py.len (_params pv))) = Ok items /\
    __next__ (Some (length items)) pv = (Ok (None, None), pv) /\
    collect fuel None pv = (Ok (Some []), pv).
Proof.
  intros Hfuel. exists (_params pv). split; [|split; [|split]].
  - unfold mbind at 1. unfold M_bind at 1. simpl.
    rewrite collect_drop by lia. by rewrite drop_0.
  - apply (getitem_all (_params pv)).
  - rewrite next_unfold. by rewrite lookup_ge_None_2.
  - destruct fuel; [lia|]. reflexivity.
Qed.

Lemma iteration_yields_elements_witness :
  (it ← __iter__; collect 4 it) theta3_pv = (Ok (Some (_params theta3_pv)), theta3_pv).
Proof.
  destruct (iteration_yields_elements theta3_pv 4) as (items & Hit & Hidx & _);
    [simpl; lia|].
  rewrite Hit. vm_compute in Hidx. by injection Hidx as <-.
Defined.

Lemma bind_unfold {A B} (m : M A) (k : A -> M B) (pv : ParameterVector) :
  (m ≫= k) pv =
  match m pv with
  | (Ok a, pv') => k a pv'
  | (Raise x, pv') => (Raise x, pv')
  end.
Proof. reflexivity. Qed.

(** X15: an iterator reads the live list.  Take the first item of a
    non-empty vector, call [resize(n)], [n >= 0], and drain the same
    iterator: it yields the elements at positions [1 .. n-1] of the
    resized vector, those appended by the resize included and those it
    dropped left out. *)
Theorem iteration_sees_resize
    (pv pv' : ParameterVector) (n : Z) (fuel : nat) (e : Element) :
  __getitem__ 0 pv = (Ok e, pv) ->
  0 <= n -> resize n pv = (Ok tt, pv') ->
  (Z.to_nat n < fuel)%nat ->
  (it ← __iter__; '(x, it') ← __next__ it; resize n;;
   r ← collect fuel it'; mret (x, r)) pv
  = (Ok (Some e, Some (drop 1 (_params pv'))), pv').
Proof.
  intros Hget Hn Hr Hfuel.
  pose proof (getitem_Ok_range _ _ _ _ Hget) as Hrange.
  destruct (list_getitem_index (_params pv) 0) as (x & Hx & Hgx); [lia|].
  rewrite getitem_unfold, Hgx in Hget. injection Hget as ->.
  change (Z.to_nat 0) with 0%nat in Hx.
  rewrite bind_unfold. change (__iter__ pv) with (Ok (Some 0%nat), pv).
  cbv beta iota. rewrite bind_unfold, next_unfold, Hx.
  cbv beta iota. rewrite bind_unfold, Hr.
  cbv beta iota. rewrite bind_unfold, collect_drop; [done|].
  pose proof (resize_len _ _ _ Hn Hr). len_lia.
Qed.

Lemma iteration_sees_resize_witness :
  exists e pv',
    resize 5 theta3_pv = (Ok tt, pv') /\
    (it ← __iter__; '(x, it') ← __next__ it; resize 5;;
     r ← collect 6 it'; mret (x, r)) theta3_pv
    = (Ok (Some e, Some (drop 1 (_params pv'))), pv') /\
    Py.len (drop 1 (_params pv')) = 4.
Proof.
  eexists _, _. split; [reflexivity|]. split.
  - apply (iteration_sees_resize theta3_pv _ 5 6); [reflexivity|lia|reflexivity|lia].
  - by vm_compute.
Defined.
